(** * The documentation route of tanstack-notebook

    A shallow embedding of [src/routes/docs/$.tsx]: the catch-all
    [/docs/$] route, its server function [loader], the client loader it
    preloads, the [Page] component with its hand-written sidebar tree,
    and the content files under [content/docs].

    Calls on the two external objects the route talks to
    ([source.getPage] and [clientLoader.preload]) are recorded in a
    trace, so that the order of the calls and the calls that never
    happen can be stated. *)

From Stdlib Require Import Strings.String Strings.Ascii.
From stdpp Require Import base option list strings gmap.

Local Open Scope string_scope.
Local Open Scope list_scope.

Set Warnings "-register-all,-clear-no-such-hyp".

(** ** The JavaScript operations the route uses *)

Module JS.

(** [s.split(sep)] for a separator of one character, as in
    [params._splat.split("/")].  The result is never empty: a string
    without the separator, the empty string included, is returned as
    its only segment.  Strings are sequences of bytes here; the byte
    of "/" never occurs inside a multi-byte character, so the segments
    are the same as those of the UTF-16 view. *)
Fixpoint split (sep : ascii) (s : string) : list string :=
  match s with
  | EmptyString => [EmptyString]
  | String c rest =>
      if Ascii.eqb c sep then EmptyString :: split sep rest
      else match split sep rest with
           | seg :: segs => String c seg :: segs
           | [] => [String c EmptyString]
           end
  end.

(** [segs.join(sep)]. *)
Fixpoint join (sep : ascii) (segs : list string) : string :=
  match segs with
  | [] => EmptyString
  | [seg] => seg
  | seg :: more => String.append seg (String sep (join sep more))
  end.

(** Does the character occur in the string? *)
Fixpoint occurs (c : ascii) (s : string) : bool :=
  match s with
  | EmptyString => false
  | String d rest => Ascii.eqb d c || occurs c rest
  end.

(** [x?.f()]: the call is made only on a value that is there. *)
Definition optChain {A B : Type} (x : option A) (f : A -> B) : option B :=
  match x with
  | Some a => Some (f a)
  | None => None
  end.

(** [x ?? d]: the default replaces only an absent value. *)
Definition nullish {A : Type} (x : option A) (d : A) : A :=
  match x with
  | Some a => a
  | None => d
  end.

Definition slash : ascii := "/"%char.

End JS.

(** ** Calls that may throw, and the calls they make *)

(** What a call can throw.  [NotFound] is the value of the routing
    library's [notFound()]; [Rejected] stands for a rejection coming out
    of the client loader. *)
Inductive Exn : Type :=
| NotFound
| Rejected.

Inductive Outcome (A : Type) : Type :=
| Returns (a : A)
| Throws (e : Exn).

Arguments Returns {A} a.
Arguments Throws {A} e.

(** The calls made on the external objects, in the order they are made. *)
Inductive Event : Type :=
| GetPage (slugs : list string)   (* source.getPage(slugs) *)
| Preload (path : string).        (* clientLoader.preload(path) *)

(** An asynchronous computation: its outcome and the calls it made. *)
Definition Async (A : Type) : Type := (Outcome A * list Event)%type.

Definition ret {A : Type} (a : A) : Async A := (Returns a, []).

Definition throw {A : Type} (e : Exn) : Async A := (Throws e, []).

Definition call (e : Event) : Async unit := (Returns tt, [e]).

(** [await]: the continuation runs only when the awaited computation
    returns; a throw propagates and nothing after it is called. *)
Definition bind {A B : Type} (m : Async A) (k : A -> Async B) : Async B :=
  match m with
  | (Returns a, made) => let '(o, more) := k a in (o, made ++ more)
  | (Throws e, made) => (Throws e, made)
  end.

Notation "'await' x <- m ; k" := (bind m (fun x => k))
  (at level 10, x name, m at level 100, k at level 200).

Definition outcome {A : Type} (m : Async A) : Outcome A := fst m.

Definition calls {A : Type} (m : Async A) : list Event := snd m.

(** The slug lists looked up among some calls, and the paths preloaded. *)
Definition lookups (evs : list Event) : list (list string) :=
  omap (fun e => match e with GetPage slugs => Some slugs | _ => None end) evs.

Definition preloads (evs : list Event) : list string :=
  omap (fun e => match e with Preload path => Some path | _ => None end) evs.

(** ** The page tree *)

Inductive NodeType : Type :=
| type_page        (* type: "page" *)
| type_separator.  (* type: "separator" *)

(** A node of a page tree: [{name, type, url?, children?}]. *)
Inductive Node : Type :=
| mkNode (name : string) (type : NodeType) (url : option string)
         (children : option (list Node)).

Definition name (n : Node) : string := let '(mkNode x _ _ _) := n in x.
Definition type (n : Node) : NodeType := let '(mkNode _ x _ _) := n in x.
Definition url (n : Node) : option string := let '(mkNode _ _ x _) := n in x.
Definition children (n : Node) : option (list Node) :=
  let '(mkNode _ _ _ x) := n in x.

(** The root of a tree: [{name, children}], without a type. *)
Record Root : Type := mkRoot {
  root_name : string;
  root_children : list Node;
}.

(** A node with everything below it. *)
Fixpoint subnodes (n : Node) : list Node :=
  match n with
  | mkNode _ _ _ None => [n]
  | mkNode _ _ _ (Some cs) => n :: concat (List.map subnodes cs)
  end.

Definition nodes (t : Root) : list Node :=
  concat (List.map subnodes (root_children t)).

(** A page node carries a url, a separator carries none. *)
Definition wellFormed (n : Node) : bool :=
  match type n, url n with
  | type_page, Some _ => true
  | type_separator, None => true
  | _, _ => false
  end.

(** ** The external objects *)

(** A page of the content source; the route reads its [path]. *)
Record DocPage : Type := mkDocPage {
  slugs : list string;
  path : string;
}.

(** [source] of [@/lib/source]: the page lookup and the page tree. *)
Record Source : Type := mkSource {
  getPage : list string -> option DocPage;
  pageTree : Root;
}.

(** The client loader of [browserCollections.docs]: whether preloading a
    path resolves or rejects, and the component it hands out for a path. *)
Record ClientLoader (Component : Type) : Type := mkClientLoader {
  preloadOutcome : string -> Outcome unit;
  getComponent : string -> Component;
}.

Arguments preloadOutcome {Component} _ _.
Arguments getComponent {Component} _ _.

(** [await clientLoader.preload(path)]. *)
Definition preload {Component : Type} (clientLoader : ClientLoader Component)
    (path : string) : Async unit :=
  await _ <- call (Preload path);
  (preloadOutcome clientLoader path, []).

(** ** The server function *)

(** What the loader returns: [{tree, path}]. *)
Record LoaderData : Type := mkLoaderData {
  tree : Root;
  data_path : string;
}.

(** [.inputValidator((slugs: string[]) => slugs)] *)
Definition inputValidator (slugs : list string) : list string := slugs.

(** [.handler(async ({ data: slugs }) => ...)] *)
Definition handler (source : Source) (slugs : list string) : Async LoaderData :=
  await _ <- call (GetPage slugs);
  match getPage source slugs with
  | None => throw NotFound
  | Some page =>
      ret {| tree := pageTree source; data_path := path page |}
  end.

(** [loader({ data })]: the validated input goes to the handler. *)
Definition loader (source : Source) (data : list string) : Async LoaderData :=
  handler source (inputValidator data).

(** ** The route *)

(** The parameters of a match of [/docs/$]. *)
Record Params : Type := mkParams {
  _splat : option string;
}.

Module Route.

(** [params._splat?.split("/") ?? []] *)
Definition slugs (params : Params) : list string :=
  JS.nullish (JS.optChain (_splat params) (JS.split JS.slash)) [].

(** The [loader] of the route. *)
Definition loader {Component : Type} (source : Source)
    (clientLoader : ClientLoader Component) (params : Params)
    : Async LoaderData :=
  let slugs := slugs params in
  await data <- loader source slugs;
  await _ <- preload clientLoader (data_path data);
  ret data.

End Route.

(** The props [DocsLayout] is rendered with and its child. *)
Record DocsLayout (Options Component : Type) : Type := mkDocsLayout {
  base : Options;
  layout_tree : Root;
  sidebar_collapsible : bool;
  content : Component;
}.

Arguments mkDocsLayout {Options Component} _ _ _ _.
Arguments base {Options Component} _.
Arguments layout_tree {Options Component} _.
Arguments sidebar_collapsible {Options Component} _.
Arguments content {Options Component} _.

(** The [Page] component, given what [Route.useLoaderData()] returns.
    [baseOptions] is the value of [baseOptions()] of [@/lib/layout.shared];
    [tree] and [sidebar] are written after the spread and so are the
    ones rendered. *)
Definition Page {Options Component : Type} (baseOptions : Options)
    (clientLoader : ClientLoader Component) (data : LoaderData)
    : DocsLayout Options Component :=
  let Content := getComponent clientLoader (data_path data) in
  mkDocsLayout baseOptions
    {| root_name := "docs";
       root_children := [
         mkNode "Introduction" type_page (Some "/docs") None;
         mkNode "Basics" type_separator None None;
         mkNode "Layouts and Pages" type_page (Some "/docs/basic-routing") None;
         mkNode "Path Params" type_page (Some "/docs/path-params") None;
         mkNode "Navigation" type_page (Some "/docs/navigation") None;
         mkNode "Search Params" type_page (Some "/docs/search-params") None;
         mkNode "Hooks" type_separator None None;
         mkNode "useNavigate" type_page (Some "/docs/use-navigate") None;
         mkNode "useParams" type_page (Some "/docs/use-params") None;
         mkNode "useSearch" type_page (Some "/docs/use-search") None;
         mkNode "useLocation" type_page (Some "/docs/use-location") None;
         mkNode "Usage" type_separator None None;
         mkNode "Pagination" type_page (Some "/docs/pagination") None
       ] |}
    false
    Content.

(** ** The content files *)

(** A file under [content/docs]: its path below that directory (left
    empty when the path is not known) and its first five lines. *)
Record ContentFile : Type := mkContentFile {
  file : string;
  first_lines : list string;
}.

(** The seven content files whose paths are known. *)
Definition namedFiles : list ContentFile := [
  {| file := "(basics)/basic-routing.md";
     first_lines := [
       "---";
       "title: Layouts and Pages";
       "description: Learn how to create layouts and pages in TanStack Router using file-based routing.";
       "---";
       "" ] |};
  {| file := "(basics)/path-params.md";
     first_lines := [
       "---";
       "title: Path Params";
       "description: Learn how to work with path parameters (dynamic route segments) in TanStack Router.";
       "---";
       "" ] |};
  {| file := "(basics)/search-params.md";
     first_lines := [
       "---";
       "title: Search Params";
       "description: Learn how to work with search params (query strings) in TanStack Router with type safety and validation.";
       "---";
       "" ] |};
  {| file := "(hooks)/use-location.md";
     first_lines := [
       "---";
       "title: useLocation";
       "description: Access current location information including pathname, search params, hash, and other URL data.";
       "---";
       "" ] |};
  {| file := "(hooks)/use-navigate.md";
     first_lines := [
       "---";
       "title: useNavigate";
       "description: Navigate programmatically in TanStack Router for side effects like form submissions and API responses.";
       "---";
       "" ] |};
  {| file := "(hooks)/use-params.md";
     first_lines := [
       "---";
       "title: useParams";
       "description: Access path parameters from the current route with type safety.";
       "---";
       "" ] |};
  {| file := "(usages)/pagination.md";
     first_lines := [
       "---";
       "title: URL-Based Pagination";
       "description: Handle pagination state in URLs with TanStack Router";
       "---";
       "" ] |} ].

(** The three content documents whose paths below [content/docs] are
    not known: those held as [unnamed/part_000] and [unnamed/part_001],
    and the one that follows the text of [(usages)/pagination.md].
    Their [file] is left empty; the first lines are those of the
    documents. *)
Definition unnamedFiles : list ContentFile := [
  {| file := EmptyString;
     first_lines := [
       "---";
       "title: Navigation";
       "description: Learn how to navigate between routes in TanStack Router using Link, useNavigate, and other navigation methods.";
       "---";
       "" ] |};
  {| file := EmptyString;
     first_lines := [
       "---";
       "title: useSearch";
       "description: Access validated search parameters (query strings) from the current route with type safety.";
       "---";
       "" ] |};
  {| file := EmptyString;
     first_lines := [
       "---";
       "title: TanStack Router Notes";
       "description: Personal notes and documentation about TanStack Router";
       "---";
       "" ] |} ].

Definition contentFiles : list ContentFile := namedFiles ++ unnamedFiles.

(** *** Front matter *)

Definition fence : string := "---".

(** Drop one leading space. *)
Definition trimLeading (s : string) : string :=
  match s with
  | String " " rest => rest
  | _ => s
  end.

(** A [key: value] line: the key is what precedes the first colon. *)
Definition keyValue (line : string) : option (string * string) :=
  match JS.split ":" line with
  | key :: (_ :: _) as value =>
      if String.eqb key "" then None
      else Some (key, trimLeading (JS.join ":" value))
  | _ => None
  end.

(** The fields up to the closing fence; [None] when a line is not a
    field or the fence never comes. *)
Fixpoint fields (lines : list string) : option (list (string * string)) :=
  match lines with
  | [] => None
  | line :: rest =>
      if String.eqb line fence then Some []
      else match keyValue line, fields rest with
           | Some kv, Some kvs => Some (kv :: kvs)
           | _, _ => None
           end
  end.

(** The front matter block a document begins with, if it begins with one. *)
Definition frontMatter (lines : list string) : option (list (string * string)) :=
  match lines with
  | first :: rest => if String.eqb first fence then fields rest else None
  | [] => None
  end.

Definition declares (key : string) (fm : list (string * string)) : bool :=
  existsb (fun kv => String.eqb (fst kv) key) fm.

(** A file begins with a front matter block declaring a title and a
    description. *)
Definition hasTitleAndDescription (f : ContentFile) : bool :=
  match frontMatter (first_lines f) with
  | Some fm => declares "title" fm && declares "description" fm
  | None => false
  end.

(** *** The content source over these files *)

(** Modelled from the spec: a folder written in parentheses groups files
    without naming a segment of their slug (part of the slug derivation
    of the content-collection library, which is not among the sources). *)
Definition isGroup (seg : string) : bool :=
  match String.get 0 seg, String.get (String.length seg - 1) seg with
  | Some "("%char, Some ")"%char => true
  | _, _ => false
  end.

(** Modelled from the spec: a file name without its extension (part of
    the same slug derivation). *)
Definition stem (base : string) : string :=
  match rev (JS.split "." base) with
  | _ :: (_ :: _) as before => JS.join "." (rev before)
  | _ => base
  end.

(** Modelled from the spec: the slug of a content file, which the
    content-collection library derives from the path of the file
    ([@/lib/source] and the library are not among the sources).  The
    spec's known slug [["search-params"]] is that of
    [(basics)/search-params.md]: group folders are left out, the
    extension is dropped, and an [index] file stands for its folder. *)
Definition fileSlugs (file : string) : list string :=
  match rev (JS.split JS.slash file) with
  | [] => []
  | base :: folders =>
      let dirs := List.filter (fun d => negb (isGroup d)) (rev folders) in
      if String.eqb (stem base) "index" then dirs else dirs ++ [stem base]
  end.

Definition pageOf (f : ContentFile) : DocPage :=
  {| slugs := fileSlugs (file f); path := file f |}.

(** Modelled from the spec: the page index of the content source, from
    the slash-separated slug to the page, over the content files whose
    paths are known.  The pages of the three documents without a known
    path are not in it, since their slugs cannot be derived. *)
Definition pageIndex : gmap string DocPage :=
  list_to_map
    (List.map (fun f => (JS.join JS.slash (fileSlugs (file f)), pageOf f))
       namedFiles).

(** Modelled from the spec: [source] of [@/lib/source] over the content
    files whose paths are known; the page tree it generates is left
    open. *)
Definition docsSource (pageTree : Root) : Source :=
  {| getPage := fun slugs => pageIndex !! JS.join JS.slash slugs;
     pageTree := pageTree |}.

(** Modelled from the spec: how the routing library matches a url
    against [/docs/$].  [bare] is the splat it reports for [/docs]
    itself, which has nothing after the prefix. *)
Definition matchDocs (bare : option string) (url : string) : option Params :=
  if String.eqb url "/docs" then Some {| _splat := bare |}
  else if String.prefix "/docs/" url
       then Some {| _splat := Some (String.substring 6 (String.length url - 6) url) |}
       else None.

(** A url resolves when the route matches it and the lookup the route
    loader makes for it finds a page. *)
Definition resolves (source : Source) (bare : option string) (url : string) : bool :=
  match matchDocs bare url with
  | Some params => bool_decide (is_Some (getPage source (Route.slugs params)))
  | None => false
  end.

(** The urls of the sidebar that lead to the three documents whose paths
    are not known. *)
Definition urlsOfUnnamedFiles : list string :=
  ["/docs"; "/docs/navigation"; "/docs/use-search"].

(** *** Sample external objects, to run the route on *)

Definition emptyTree : Root := {| root_name := "docs"; root_children := [] |}.

(** A client loader whose preloads resolve and whose component for a
    path is the path itself. *)
Definition resolvingClient : ClientLoader string :=
  {| preloadOutcome := fun _ => Returns tt; getComponent := fun path => path |}.

(** A client loader whose preloads reject. *)
Definition rejectingClient : ClientLoader string :=
  {| preloadOutcome := fun _ => Throws Rejected; getComponent := fun path => path |}.

(** ** The props of the layout *)

(** A value among the props of [DocsLayout]: the page tree, the sidebar
    options [{collapsible}], the child element, or any other value that
    [baseOptions()] may hold. *)
Inductive PropValue (Other Component : Type) : Type :=
| TreeProp (tree : Root)
| SidebarProp (collapsible : bool)
| ChildrenProp (child : Component)
| OtherProp (value : Other).

Arguments TreeProp {Other Component} tree.
Arguments SidebarProp {Other Component} collapsible.
Arguments ChildrenProp {Other Component} child.
Arguments OtherProp {Other Component} value.

(** The props of an element made from a props object: the JSX runtime
    takes the names it reserves out of the object ([key], and before
    React 19 also [ref]) and the component receives the rest.
    [reserved] tells which names these are. *)
Definition elementProps {Value : Type} (reserved : string -> bool)
    (config : gmap string Value) : gmap string Value :=
  filter (fun entry => reserved (fst entry) = false) config.

(** The props [DocsLayout] receives from
    [<DocsLayout {...baseOptions()} tree={...} sidebar={...}><Content /></DocsLayout>]:
    the entries of [baseOptions()] are spread first, then [tree] and
    [sidebar] are set and the child element becomes [children]; the
    runtime then takes the reserved names out.  [DocsLayout] is taken to
    declare no default props. *)
Definition docsLayoutProps {Other Component : Type}
    (reserved : string -> bool)
    (baseOptions : gmap string (PropValue Other Component))
    (clientLoader : ClientLoader Component) (data : LoaderData)
    : gmap string (PropValue Other Component) :=
  let rendered := Page baseOptions clientLoader data in
  elementProps reserved
    (<["children" := ChildrenProp (content rendered)]>
       (<["sidebar" := SidebarProp (sidebar_collapsible rendered)]>
          (<["tree" := TreeProp (layout_tree rendered)]> (base rendered)))).

(** The names React 18 takes out of the props. *)
Definition react18Reserved (key : string) : bool :=
  String.eqb key "key" || String.eqb key "ref"
  || String.eqb key "__self" || String.eqb key "__source".

(** Base options that hold a [key], a [tree] of their own and a [nav]. *)
Definition sampleBaseOptions : gmap string (PropValue nat string) :=
  <["key" := OtherProp 1]>
    (<["tree" := TreeProp emptyTree]> (<["nav" := OtherProp 2]> ∅)).

(** ** The sample route [/sample/link/] *)

Module SampleLink.

(** The inline style of the box of a link. *)
Record Style : Type := mkStyle {
  backgroundColor : string;
  padding : string;
  borderRadius : string;
  width : string;
  height : string;
}.

(** The [div] a link renders: its style and the texts of its spans. *)
Record Box : Type := mkBox {
  style : Style;
  spans : list string;
}.

(** A [Link]: its target and its child, a function of [{ isActive }]. *)
Record Link : Type := mkLink {
  to : string;
  children : bool -> Box;
}.

(** [RouteComponent]: the two links inside the [div]. *)
Definition RouteComponent : list Link := [
  {| to := ".";
     children := fun isActive =>
       {| style :=
            {| backgroundColor := if isActive then "red" else "blue";
               padding := "10px";
               borderRadius := "5px";
               width := "150px";
               height := "50px" |};
          spans := ["This Page "; if isActive then "Active" else "Inactive"] |} |};
  {| to := "/";
     children := fun isActive =>
       {| style :=
            {| backgroundColor := if isActive then "red" else "blue";
               padding := "10px";
               borderRadius := "5px";
               width := "250px";
               height := "50px" |};
          spans := ["Root Page "; if isActive then "Active" else "Inactive"] |} |}
].

End SampleLink.

(** ** Measures used in the statements *)

(** How often a character occurs in a string. *)
Fixpoint countChar (c : ascii) (s : string) : nat :=
  match s with
  | EmptyString => 0
  | String d rest => (if Ascii.eqb d c then 1 else 0) + countChar c rest
  end.

(** *** Facts about [split] and [join] *)

Lemma split_nonempty (sep : ascii) (s : string) : JS.split sep s <> [].
Proof.
  destruct s as [|c rest]; simpl; [discriminate|].
  destruct (Ascii.eqb c sep); [discriminate|].
  destruct (JS.split sep rest); discriminate.
Qed.

Lemma join_cons_cons (sep : ascii) (a b : string) (l : list string) :
  JS.join sep (a :: b :: l) = String.append a (String sep (JS.join sep (b :: l))).
Proof. reflexivity. Qed.

Lemma join_push (sep c : ascii) (seg : string) (segs : list string) :
  JS.join sep (String c seg :: segs) = String c (JS.join sep (seg :: segs)).
Proof. destruct segs; reflexivity. Qed.

(** Joining the segments with the separator gives the string back. *)
Lemma join_split (sep : ascii) (s : string) : JS.join sep (JS.split sep s) = s.
Proof.
  induction s as [|c rest IH]; [reflexivity|].
  simpl. destruct (Ascii.eqb_spec c sep) as [->|Hne].
  - pose proof (split_nonempty sep rest) as Hn.
    destruct (JS.split sep rest) as [|seg segs] eqn:E; [contradiction|].
    rewrite join_cons_cons, IH. reflexivity.
  - pose proof (split_nonempty sep rest) as Hn.
    destruct (JS.split sep rest) as [|seg segs] eqn:E; [contradiction|].
    rewrite join_push, IH. reflexivity.
Qed.

(** No segment contains the separator. *)
Lemma split_segments_clean (sep : ascii) (s : string) :
  Forall (fun seg => JS.occurs sep seg = false) (JS.split sep s).
Proof.
  induction s as [|c rest IH]; simpl.
  - repeat constructor.
  - destruct (Ascii.eqb_spec c sep) as [->|Hne].
    + constructor; [reflexivity | exact IH].
    + destruct (JS.split sep rest) as [|seg segs].
      * constructor; [|constructor]. simpl.
        destruct (Ascii.eqb_spec c sep); [contradiction | reflexivity].
      * inversion IH as [|? ? Hseg Hsegs]; subst.
        constructor; [|exact Hsegs]. simpl.
        destruct (Ascii.eqb_spec c sep); [contradiction | exact Hseg].
Qed.

(** A list of separator-free segments is what [split] makes of its
    joined string: [split] is the inverse of [join] on such lists. *)
Lemma split_join (sep : ascii) (segs : list string) :
  segs <> [] ->
  Forall (fun seg => JS.occurs sep seg = false) segs ->
  JS.split sep (JS.join sep segs) = segs.
Proof.
  induction segs as [|seg more IH]; [contradiction|].
  intros _ Hall. inversion Hall as [|? ? Hseg Hmore]; subst.
  destruct more as [|seg' more'].
  - clear IH Hall Hmore. simpl.
    induction seg as [|c seg IHseg]; [reflexivity|].
    simpl in *. apply orb_false_iff in Hseg as [Hc Hs].
    rewrite Hc, (IHseg Hs). reflexivity.
  - rewrite join_cons_cons.
    specialize (IH ltac:(discriminate) Hmore).
    clear Hall Hmore.
    induction seg as [|c seg IHseg].
    + change (JS.split sep (String sep (JS.join sep (seg' :: more')))
              = "" :: seg' :: more').
      cbn [JS.split]. rewrite Ascii.eqb_refl, IH. reflexivity.
    + change (JS.split sep
                (String c (String.append seg
                             (String sep (JS.join sep (seg' :: more')))))
              = String c seg :: seg' :: more').
      cbn [JS.split JS.occurs] in *.
      apply orb_false_iff in Hseg as [Hc Hs].
      rewrite Hc, (IHseg Hs). reflexivity.
Qed.

(** ** Running asynchronous computations *)

Lemma bind_returns {A B : Type} (a : A) (made : list Event) (k : A -> Async B) :
  bind (Returns a, made) k = (outcome (k a), made ++ calls (k a)).
Proof. unfold bind, outcome, calls. destruct (k a); reflexivity. Qed.

Lemma bind_throws {A B : Type} (e : Exn) (made : list Event) (k : A -> Async B) :
  bind (Throws e, made) k = (Throws e, made).
Proof. reflexivity. Qed.

Lemma bind_ret_r {A : Type} (m : Async A) : bind m ret = m.
Proof.
  destruct m as [[a|e] made]; simpl; [|reflexivity].
  rewrite app_nil_r. reflexivity.
Qed.

(** What has been called before an [await] stays called after it. *)
Lemma calls_bind_prefix {A B : Type} (m : Async A) (k : A -> Async B) :
  exists more, calls (bind m k) = calls m ++ more.
Proof.
  destruct m as [[a|e] made].
  - rewrite bind_returns. exists (calls (k a)). reflexivity.
  - exists []. simpl. rewrite app_nil_r. reflexivity.
Qed.

Ltac run_async :=
  unfold Route.loader, loader, handler, inputValidator, preload, call, ret, throw;
  repeat (rewrite bind_returns || rewrite bind_throws);
  cbn [outcome calls fst snd app].

(** The server function makes one lookup, and the lookup decides it. *)
Lemma loader_run (source : Source) (data : list string) :
  loader source data =
    (match getPage source data with
     | Some page => Returns {| tree := pageTree source; data_path := path page |}
     | None => Throws NotFound
     end, [GetPage data]).
Proof. run_async. destruct (getPage source data); reflexivity. Qed.

(** The index answers for the slash-separated slug, so a list of one
    empty segment finds what the empty list finds. *)
Lemma docsSource_empty_segment (pageTree : Root) :
  getPage (docsSource pageTree) [""] = getPage (docsSource pageTree) [].
Proof. reflexivity. Qed.

(** ** The server function *)

(** C1: for every array of slug segments, the server function [loader]
    signals not-found exactly when the content source has no page for
    the segments; when it has one, the function returns [{tree, path}]
    with the page tree of the source and the path of that page. *)
Theorem loader_not_found_exactly_when_no_page (source : Source)
    (data : list string) :
  (outcome (loader source data) = Throws NotFound
   <-> getPage source data = None)
  /\ match getPage source data with
     | Some page =>
         outcome (loader source data)
         = Returns {| tree := pageTree source; data_path := path page |}
     | None => outcome (loader source data) = Throws NotFound
     end.
Proof.
  rewrite loader_run. unfold outcome. cbn [fst].
  destruct (getPage source data) as [page|]; split; try reflexivity.
  - split; discriminate.
  - split; reflexivity.
Qed.

(** C10: when the server function succeeds on two arrays of slugs, the
    two results have the same tree, the page tree of the content source,
    whichever slugs were asked for. *)
Theorem loader_tree_independent_of_slugs (source : Source)
    (slugs1 slugs2 : list string) (data1 data2 : LoaderData) :
  outcome (loader source slugs1) = Returns data1 ->
  outcome (loader source slugs2) = Returns data2 ->
  tree data1 = tree data2 /\ tree data1 = pageTree source.
Proof.
  rewrite !loader_run. unfold outcome. cbn [fst].
  destruct (getPage source slugs1), (getPage source slugs2);
    intros H1 H2; try discriminate.
  injection H1 as <-. injection H2 as <-. split; reflexivity.
Qed.

Lemma loader_tree_independent_of_slugs_witness :
  tree {| tree := emptyTree; data_path := "(basics)/search-params.md" |}
  = tree {| tree := emptyTree; data_path := "(usages)/pagination.md" |}
  /\ tree {| tree := emptyTree; data_path := "(basics)/search-params.md" |}
     = pageTree (docsSource emptyTree).
Proof.
  apply (loader_tree_independent_of_slugs (docsSource emptyTree)
           ["search-params"] ["pagination"]);
    vm_compute; reflexivity.
Defined.

(** ** The route loader *)

Section RouteLoader.

Context {Options Component : Type}.
Variable baseOptions : Options.
Variable source : Source.
Variable clientLoader : ClientLoader Component.

(** The route loader on parameters whose slugs have a page. *)
Lemma route_loader_found (params : Params) (page : DocPage) :
  getPage source (Route.slugs params) = Some page ->
  Route.loader source clientLoader params =
    (match preloadOutcome clientLoader (path page) with
     | Returns _ => Returns {| tree := pageTree source; data_path := path page |}
     | Throws e => Throws e
     end, [GetPage (Route.slugs params); Preload (path page)]).
Proof.
  intros Hpage. unfold Route.loader. rewrite loader_run, Hpage.
  run_async. cbn [data_path].
  destruct (preloadOutcome clientLoader (path page)) as [[]|e]; reflexivity.
Qed.

(** The route loader on parameters whose slugs have no page. *)
Lemma route_loader_missing (params : Params) :
  getPage source (Route.slugs params) = None ->
  Route.loader source clientLoader params =
    (Throws NotFound, [GetPage (Route.slugs params)]).
Proof.
  intros Hnone. unfold Route.loader. rewrite loader_run, Hnone.
  reflexivity.
Qed.

(** Whatever the lookup answers, it is the first call and the only lookup. *)
Lemma route_loader_lookups (params : Params) :
  lookups (calls (Route.loader source clientLoader params)) = [Route.slugs params].
Proof.
  destruct (getPage source (Route.slugs params)) as [page|] eqn:Hpage.
  - rewrite (route_loader_found _ _ Hpage). reflexivity.
  - rewrite (route_loader_missing _ Hpage). reflexivity.
Qed.

(** C2: for every splat string, the route loader looks up exactly one
    list of segments, the splat split on "/": the segments joined with
    "/" are the splat and no segment contains a "/", and no other list
    of segments is like that. *)
Theorem route_loader_looks_up_split_splat (splat : string) :
  let segments := JS.split JS.slash splat in
  Route.slugs {| _splat := Some splat |} = segments
  /\ lookups (calls (Route.loader source clientLoader {| _splat := Some splat |}))
     = [segments]
  /\ JS.join JS.slash segments = splat
  /\ Forall (fun seg => JS.occurs JS.slash seg = false) segments
  /\ (forall segs : list string,
        segs <> [] ->
        Forall (fun seg => JS.occurs JS.slash seg = false) segs ->
        JS.join JS.slash segs = splat ->
        segs = segments).
Proof.
  intros segments. split; [reflexivity|].
  split; [rewrite route_loader_lookups; reflexivity|].
  split; [apply join_split|].
  split; [apply split_segments_clean|].
  intros segs Hne Hclean <-. subst segments.
  symmetry. apply split_join; assumption.
Qed.

(** C8: the route loader takes an absent splat to the empty list of
    slugs, and the empty splat to the list of one empty segment, which
    is not the empty list; these are the lists it looks up. *)
Theorem route_loader_absent_and_empty_splat :
  Route.slugs {| _splat := None |} = []
  /\ Route.slugs {| _splat := Some "" |} = [""]
  /\ Route.slugs {| _splat := Some "" |} <> []
  /\ lookups (calls (Route.loader source clientLoader {| _splat := None |}))
     = [[]]
  /\ lookups (calls (Route.loader source clientLoader {| _splat := Some "" |}))
     = [[""]].
Proof.
  repeat split; try reflexivity; try discriminate;
    rewrite route_loader_lookups; reflexivity.
Qed.

(** C3: when the lookup for the slugs succeeds, the route loader calls
    the client loader's preload with the path of the page found, after
    the lookup and before it returns: it returns only once the preload
    has resolved, and then it returns the data with that path; [Page]
    obtains its content component with that same path. *)
Theorem route_loader_preloads_returned_path (params : Params)
    (page : DocPage) :
  getPage source (Route.slugs params) = Some page ->
  let run := Route.loader source clientLoader params in
  calls run = [GetPage (Route.slugs params); Preload (path page)]
  /\ (forall data, outcome run = Returns data ->
        preloadOutcome clientLoader (path page) = Returns tt
        /\ data = {| tree := pageTree source; data_path := path page |}
        /\ content (Page baseOptions clientLoader data)
           = getComponent clientLoader (path page))
  /\ (preloadOutcome clientLoader (path page) = Returns tt ->
        outcome run
        = Returns {| tree := pageTree source; data_path := path page |}).
Proof.
  intros Hpage run. subst run. rewrite (route_loader_found _ _ Hpage).
  unfold outcome, calls. cbn [fst snd].
  split; [reflexivity|]. split.
  - intros data Hdata.
    destruct (preloadOutcome clientLoader (path page)) as [[]|e];
      [|discriminate].
    injection Hdata as <-. repeat split.
  - intros ->. reflexivity.
Qed.

(** C9: when the lookup fails, the route loader throws not-found, returns
    no data and never calls preload: the lookup is its only call. *)
Theorem route_loader_not_found_skips_preload (params : Params) :
  getPage source (Route.slugs params) = None ->
  let run := Route.loader source clientLoader params in
  outcome run = Throws NotFound
  /\ (forall data, outcome run <> Returns data)
  /\ preloads (calls run) = []
  /\ calls run = [GetPage (Route.slugs params)].
Proof.
  intros Hnone run. subst run. rewrite (route_loader_missing _ Hnone).
  repeat split; try reflexivity. intros data; discriminate.
Qed.

End RouteLoader.

Lemma route_loader_preloads_returned_path_witness :
  let run :=
    Route.loader (docsSource emptyTree) resolvingClient
      {| _splat := Some "search-params" |} in
  calls run
  = [GetPage ["search-params"]; Preload "(basics)/search-params.md"]
  /\ outcome run
     = Returns {| tree := emptyTree; data_path := "(basics)/search-params.md" |}.
Proof.
  pose proof (route_loader_preloads_returned_path tt (docsSource emptyTree)
                resolvingClient {| _splat := Some "search-params" |}
                {| slugs := ["search-params"];
                   path := "(basics)/search-params.md" |}
                ltac:(vm_compute; reflexivity)) as [Hcalls [_ Hreturns]].
  split; [exact Hcalls | exact (Hreturns eq_refl)].
Defined.

Lemma route_loader_not_found_skips_preload_witness :
  let run :=
    Route.loader (docsSource emptyTree) resolvingClient
      {| _splat := Some "no/such/page" |} in
  outcome run = Throws NotFound
  /\ (forall data, outcome run <> Returns data)
  /\ preloads (calls run) = []
  /\ calls run = [GetPage ["no"; "such"; "page"]].
Proof.
  apply (route_loader_not_found_skips_preload (docsSource emptyTree)
           resolvingClient {| _splat := Some "no/such/page" |}).
  vm_compute; reflexivity.
Defined.

(** ** The sidebar tree *)

(** C6: in the tree that [Page] hands to the layout, every node of type
    "page" has a url and every node of type "separator" has none; and
    the tree is a constant: [Page] renders the same tree whatever the
    loader data, the client loader and the base options are. *)
Theorem sidebar_tree_well_formed_and_constant {Options Component : Type}
    (baseOptions : Options) (clientLoader : ClientLoader Component)
    (data : LoaderData) :
  let sidebar := layout_tree (Page baseOptions clientLoader data) in
  Forall (fun n =>
            match type n with
            | type_page => exists u, url n = Some u
            | type_separator => url n = None
            end) (nodes sidebar)
  /\ Forall (fun n => wellFormed n = true) (nodes sidebar)
  /\ forall (Options' Component' : Type) (baseOptions' : Options')
       (clientLoader' : ClientLoader Component') (data' : LoaderData),
       layout_tree (Page baseOptions' clientLoader' data') = sidebar.
Proof.
  intros sidebar. subst sidebar. cbn. split; [|split].
  - repeat (constructor; [cbn; eauto|]). constructor.
  - repeat constructor.
  - reflexivity.
Qed.

(** A url resolves exactly when the route matches it and the source has
    a page for the slugs the route loader derives. *)
Lemma resolves_spec (source : Source) (bare : option string) (url : string) :
  resolves source bare url = true
  <-> exists params page,
        matchDocs bare url = Some params
        /\ getPage source (Route.slugs params) = Some page.
Proof.
  unfold resolves. destruct (matchDocs bare url) as [params|].
  - rewrite bool_decide_eq_true. split.
    + intros [page Hpage]. exists params, page. split; [reflexivity | exact Hpage].
    + intros (params' & page & Hm & Hpage). injection Hm as <-.
      exists page. exact Hpage.
  - split; [discriminate|]. intros (params & page & Hm & _). discriminate.
Qed.

(** Of the page entries of the sidebar, those that lead to a content
    file whose path is known have a url that the catch-all route matches
    and for whose slugs the index over these files has a page.  The
    three other entries lead to the documents whose paths, and so whose
    slugs, are not known. *)
Lemma sidebar_pages_of_named_files_resolve {Options Component : Type}
    (baseOptions : Options) (clientLoader : ClientLoader Component)
    (data : LoaderData) (pageTree : Root) (bare : option string) :
  Forall (fun n =>
            type n = type_page ->
            exists u,
              url n = Some u
              /\ (resolves (docsSource pageTree) bare u = true
                  \/ In u urlsOfUnnamedFiles))
         (nodes (layout_tree (Page baseOptions clientLoader data))).
Proof.
  cbn.
  repeat (apply List.Forall_cons;
          [intros Hty; cbn in Hty;
           first [ discriminate Hty
                 | eexists; split; [reflexivity|];
                   first [left; vm_compute; reflexivity | right; cbn; tauto] ]
          |]).
  apply List.Forall_nil.
Qed.

(** ** The content files *)

(** C4: for the known slug [["search-params"]] the server function
    succeeds, and the path it returns is that of the content file
    [(basics)/search-params.md] under [content/docs]; the route loader
    preloads that path. *)
Theorem loader_finds_search_params {Component : Type}
    (clientLoader : ClientLoader Component) (pageTree : Root) :
  loader (docsSource pageTree) ["search-params"]
  = (Returns {| tree := pageTree; data_path := "(basics)/search-params.md" |},
     [GetPage ["search-params"]])
  /\ In "(basics)/search-params.md" (List.map file namedFiles)
  /\ calls (Route.loader (docsSource pageTree) clientLoader
              {| _splat := Some "search-params" |})
     = [GetPage ["search-params"]; Preload "(basics)/search-params.md"].
Proof.
  split; [reflexivity|]. split.
  - cbn. auto.
  - rewrite (route_loader_found _ _ _
               {| slugs := ["search-params"];
                  path := "(basics)/search-params.md" |});
      [reflexivity | vm_compute; reflexivity].
Qed.

Lemma hasTitleAndDescription_spec (f : ContentFile) :
  hasTitleAndDescription f = true ->
  exists fm, frontMatter (first_lines f) = Some fm
             /\ declares "title" fm = true
             /\ declares "description" fm = true.
Proof.
  unfold hasTitleAndDescription.
  destruct (frontMatter (first_lines f)) as [fm|]; [|discriminate].
  intros H. apply andb_true_iff in H. exists fm. split; [reflexivity | exact H].
Qed.

(** C7: every content file begins with a front matter block, fenced by
    "---" lines, that declares a [title] field and a [description]
    field. *)
Theorem content_files_declare_title_and_description :
  Forall (fun f =>
            exists fm, frontMatter (first_lines f) = Some fm
                       /\ declares "title" fm = true
                       /\ declares "description" fm = true)
         contentFiles.
Proof.
  eapply Forall_impl; [|intros f; apply hasTitleAndDescription_spec].
  repeat constructor.
Qed.

(** ** More on the slugs of the route *)

(** Splitting a string that has a separator in the middle: the segments
    of what precedes it, then the segments of what follows. *)
Lemma split_app (sep : ascii) (a b : string) :
  JS.split sep (String.append a (String sep b))
  = JS.split sep a ++ JS.split sep b.
Proof.
  induction a as [|c a IH].
  - change (JS.split sep (String sep b) = [""] ++ JS.split sep b).
    cbn [JS.split]. rewrite Ascii.eqb_refl. reflexivity.
  - change (JS.split sep (String c (String.append a (String sep b)))
            = JS.split sep (String c a) ++ JS.split sep b).
    cbn [JS.split]. rewrite IH.
    pose proof (split_nonempty sep a) as Hne.
    destruct (Ascii.eqb c sep); [reflexivity|].
    destruct (JS.split sep a) as [|seg segs]; [contradiction | reflexivity].
Qed.

Lemma split_length (sep : ascii) (s : string) :
  length (JS.split sep s) = S (countChar sep s).
Proof.
  induction s as [|c s IH]; [reflexivity|].
  cbn [JS.split countChar].
  pose proof (split_nonempty sep s) as Hne.
  destruct (Ascii.eqb c sep).
  - cbn [length]. rewrite IH. reflexivity.
  - destruct (JS.split sep s) as [|seg segs]; [contradiction|].
    cbn [length] in *. rewrite IH. reflexivity.
Qed.

(** X1: the slug list of the route is empty exactly when the splat is
    absent; a splat that is present, the empty one included, always
    gives at least one segment. *)
Theorem route_slugs_empty_iff_absent (params : Params) :
  Route.slugs params = [] <-> _splat params = None.
Proof.
  destruct params as [[splat|]]; cbn.
  - split; [|discriminate]. intros H. destruct (split_nonempty _ _ H).
  - split; reflexivity.
Qed.

(** X2: different route parameters are never looked up under the same
    slug list: the slugs determine the splat. *)
Theorem route_slugs_injective (params1 params2 : Params) :
  Route.slugs params1 = Route.slugs params2 <-> params1 = params2.
Proof.
  split; [|intros ->; reflexivity].
  destruct params1 as [[s1|]], params2 as [[s2|]]; cbn; intros H.
  - rewrite <- (join_split JS.slash s1), <- (join_split JS.slash s2), H.
    reflexivity.
  - destruct (split_nonempty _ _ H).
  - symmetry in H. destruct (split_nonempty _ _ H).
  - reflexivity.
Qed.

(** X3: the slugs of a splat with a "/" in it are the slugs of the part
    before it followed by the slugs of the part after it; so a trailing
    "/" adds an empty last segment and a leading "/" an empty first one. *)
Theorem route_slugs_of_joined_splats (a b : string) :
  Route.slugs {| _splat := Some (String.append a (String JS.slash b)) |}
  = Route.slugs {| _splat := Some a |} ++ Route.slugs {| _splat := Some b |}
  /\ Route.slugs {| _splat := Some (String.append a "/") |}
     = Route.slugs {| _splat := Some a |} ++ [""]
  /\ Route.slugs {| _splat := Some (String JS.slash b) |}
     = "" :: Route.slugs {| _splat := Some b |}.
Proof.
  unfold Route.slugs. cbn [JS.optChain JS.nullish _splat].
  split; [apply split_app|]. split.
  - apply (split_app JS.slash a "").
  - apply (split_app JS.slash "" b).
Qed.

(** X4: a splat with n occurrences of "/" is looked up as n + 1
    segments. *)
Theorem route_slugs_length (splat : string) :
  length (Route.slugs {| _splat := Some splat |})
  = S (countChar JS.slash splat).
Proof. apply split_length. Qed.

(** ** More on the calls of the route loader *)

Section RouteLoaderCalls.

Context {Component : Type}.
Variable source : Source.
Variable clientLoader : ClientLoader Component.

(** X5: when the lookup succeeds and the preload of the page's path
    rejects, the route loader throws what the preload threw, after both
    calls, and returns no data. *)
Theorem route_loader_preload_rejection (params : Params) (page : DocPage)
    (e : Exn) :
  getPage source (Route.slugs params) = Some page ->
  preloadOutcome clientLoader (path page) = Throws e ->
  Route.loader source clientLoader params
  = (Throws e, [GetPage (Route.slugs params); Preload (path page)]).
Proof.
  intros Hpage Hpre. rewrite (route_loader_found _ _ _ _ Hpage), Hpre.
  reflexivity.
Qed.

(** X6: the route loader returns data exactly when the source has a
    page for the slugs and the preload of that page's path resolves. *)
Theorem route_loader_returns_iff (params : Params) :
  (exists data, outcome (Route.loader source clientLoader params) = Returns data)
  <-> exists page,
        getPage source (Route.slugs params) = Some page
        /\ preloadOutcome clientLoader (path page) = Returns tt.
Proof.
  destruct (getPage source (Route.slugs params)) as [page|] eqn:Hpage.
  - rewrite (route_loader_found _ _ _ _ Hpage). unfold outcome. cbn [fst].
    split.
    + intros [data Hdata]. exists page. split; [reflexivity|].
      destruct (preloadOutcome clientLoader (path page)) as [[]|e];
        [reflexivity | discriminate].
    + intros (page' & Heq & Hpre). injection Heq as <-. rewrite Hpre.
      eexists. reflexivity.
  - rewrite (route_loader_missing _ _ _ Hpage). unfold outcome. cbn [fst].
    split.
    + intros [data Hdata]. discriminate.
    + intros (page & Heq & _). discriminate.
Qed.

(** X7: in every run the first call of the route loader is the lookup
    for its slugs and the remaining calls are its preloads; it preloads
    at most once, and only the path of the page the lookup found. *)
Theorem route_loader_calls_shape (params : Params) :
  let run := Route.loader source clientLoader params in
  calls run
  = GetPage (Route.slugs params) :: List.map Preload (preloads (calls run))
  /\ length (preloads (calls run)) <= 1
  /\ (forall p, In p (preloads (calls run)) ->
        exists page,
          getPage source (Route.slugs params) = Some page /\ p = path page).
Proof.
  intros run. subst run.
  destruct (getPage source (Route.slugs params)) as [page|] eqn:Hpage.
  - rewrite (route_loader_found _ _ _ _ Hpage). unfold calls. cbn.
    split; [reflexivity|]. split; [lia|].
    intros p [<-|[]]. exists page. split; reflexivity.
  - rewrite (route_loader_missing _ _ _ Hpage). unfold calls. cbn.
    split; [reflexivity|]. split; [lia|]. intros p [].
Qed.

End RouteLoaderCalls.

Lemma route_loader_preload_rejection_witness :
  Route.loader (docsSource emptyTree) rejectingClient
    {| _splat := Some "pagination" |}
  = (Throws Rejected,
     [GetPage ["pagination"]; Preload "(usages)/pagination.md"]).
Proof.
  apply (route_loader_preload_rejection (docsSource emptyTree) rejectingClient
           {| _splat := Some "pagination" |}
           {| slugs := ["pagination"]; path := "(usages)/pagination.md" |}
           Rejected);
    vm_compute; reflexivity.
Defined.

(** ** The props of the layout *)

Lemma elementProps_lookup {Value : Type} (reserved : string -> bool)
    (config : gmap string Value) (key : string) :
  elementProps reserved config !! key
  = if reserved key then None else config !! key.
Proof.
  unfold elementProps. apply option_eq. intros v.
  rewrite map_lookup_filter_Some. cbn [fst].
  destruct (reserved key); split.
  - intros [_ H]. discriminate H.
  - discriminate.
  - intros [H _]. exact H.
  - intros H. split; [exact H | reflexivity].
Qed.

(** X8: let the JSX runtime reserve neither [tree], [sidebar] nor
    [children].  Then, whatever [baseOptions()] holds, the props of the
    layout have the sidebar tree of [Page] under [tree],
    [{collapsible: false}] under [sidebar] and the content component of
    the data's path under [children]; every other key is absent when
    the runtime reserves it, and otherwise has the value [baseOptions()]
    gives it, if any. *)
Theorem docs_layout_props_override {Other Component : Type}
    (reserved : string -> bool)
    (baseOptions : gmap string (PropValue Other Component))
    (clientLoader : ClientLoader Component) (data : LoaderData) :
  reserved "tree" = false ->
  reserved "sidebar" = false ->
  reserved "children" = false ->
  let props := docsLayoutProps reserved baseOptions clientLoader data in
  props !! "tree"
  = Some (TreeProp (layout_tree (Page tt clientLoader data)))
  /\ props !! "sidebar" = Some (SidebarProp false)
  /\ props !! "children"
     = Some (ChildrenProp (getComponent clientLoader (data_path data)))
  /\ (forall key : string,
        key <> "tree" -> key <> "sidebar" -> key <> "children" ->
        props !! key = if reserved key then None else baseOptions !! key).
Proof.
  intros Htree Hsidebar Hchildren props. subst props.
  unfold docsLayoutProps. cbn zeta.
  cbn [Page content sidebar_collapsible layout_tree base].
  split; [|split; [|split]].
  - rewrite elementProps_lookup, Htree.
    rewrite lookup_insert_ne by discriminate.
    rewrite lookup_insert_ne by discriminate.
    apply lookup_insert_eq.
  - rewrite elementProps_lookup, Hsidebar.
    rewrite lookup_insert_ne by discriminate. apply lookup_insert_eq.
  - rewrite elementProps_lookup, Hchildren. apply lookup_insert_eq.
  - intros key Ht Hs Hc. rewrite elementProps_lookup.
    destruct (reserved key); [reflexivity|].
    rewrite lookup_insert_ne by congruence.
    rewrite lookup_insert_ne by congruence.
    apply lookup_insert_ne. congruence.
Qed.

Lemma docs_layout_props_override_witness :
  let props :=
    docsLayoutProps react18Reserved sampleBaseOptions resolvingClient
      {| tree := emptyTree; data_path := "(basics)/search-params.md" |} in
  props !! "sidebar" = Some (SidebarProp false)
  /\ props !! "children" = Some (ChildrenProp "(basics)/search-params.md")
  /\ props !! "key" = None
  /\ props !! "nav" = Some (OtherProp 2).
Proof.
  pose proof (docs_layout_props_override react18Reserved sampleBaseOptions
                resolvingClient
                {| tree := emptyTree; data_path := "(basics)/search-params.md" |}
                eq_refl eq_refl eq_refl) as (_ & Hsidebar & Hchildren & Hrest).
  split; [exact Hsidebar|]. split; [exact Hchildren|]. split.
  - exact (Hrest "key" ltac:(discriminate) ltac:(discriminate)
             ltac:(discriminate)).
  - rewrite (Hrest "nav" ltac:(discriminate) ltac:(discriminate)
               ltac:(discriminate)).
    vm_compute. reflexivity.
Defined.

(** ** The sample links *)

(** X9: each of the two sample links shows a red box exactly when its
    label says "Active" and a blue box exactly when it says "Inactive",
    and becoming active changes neither the size, the padding and the
    corner radius of the box nor its first text. *)
Theorem sample_links_colour_matches_label :
  Forall (fun link =>
            forall isActive : bool,
              let box := SampleLink.children link isActive in
              let colour := SampleLink.backgroundColor (SampleLink.style box) in
              (colour = "red" <-> In "Active" (SampleLink.spans box))
              /\ (colour = "blue" <-> In "Inactive" (SampleLink.spans box))
              /\ (colour = "red" <-> isActive = true)
              /\ (forall other : bool,
                    let box' := SampleLink.children link other in
                    SampleLink.padding (SampleLink.style box')
                    = SampleLink.padding (SampleLink.style box)
                    /\ SampleLink.borderRadius (SampleLink.style box')
                       = SampleLink.borderRadius (SampleLink.style box)
                    /\ SampleLink.width (SampleLink.style box')
                       = SampleLink.width (SampleLink.style box)
                    /\ SampleLink.height (SampleLink.style box')
                       = SampleLink.height (SampleLink.style box)
                    /\ List.hd "" (SampleLink.spans box')
                       = List.hd "" (SampleLink.spans box)))
         SampleLink.RouteComponent.
Proof.
  unfold SampleLink.RouteComponent.
  repeat (apply List.Forall_cons; [intros [|]|]); try apply List.Forall_nil;
    cbn; repeat split; try (intros [|]; cbn; repeat split);
    intros; try reflexivity; try discriminate; auto;
    intuition discriminate.
Qed.
